(** * Session manager of the julia language-server extension

    A shallow embedding of [src/extension.ts]: the module-level globals
    become the fields of a [State] record, every call into the editor
    API, the language-client library or a feature module is appended to
    an effect log, and the asynchronous parts of [startLanguageServer]
    are split at their [await]s into continuations that the host event
    loop resumes through [Event]s.  Identifiers are resolved as the
    module binds them: a read of a name that nothing binds throws. *)

From Stdlib Require Import List String Bool Arith Lia NArith.
From Stdlib Require Import DecimalString DecimalN DecimalPos.
Import ListNotations.
Open Scope string_scope.
Open Scope list_scope.

(** ** Data model *)

(** Identity of a [LanguageClient] object: every [new LanguageClient]
    yields a fresh one. *)
Definition Client := nat.

(** Identity of one invocation of the async function
    [startLanguageServer]. *)
Definition Task := nat.

(** [settings.ISettings] is declared outside this file; the manager reads
    a single field of it, [juliaExePath] (a string or null), and passes
    the remainder on untouched. *)
Record ISettings := mkSettings {
  juliaExePath : option string;
  otherSettings : list (string * string)
}.

(** The modules imported by [extension.ts] that are told about
    configuration changes and about new language clients. *)
Inductive Module :=
| telemetry | juliaexepath | repl | weave | tasks
| smallcommands | packagepath | openpackagedirectory.

(** Order of the [onDidChangeConfiguration] calls in [configChanged]. *)
Definition configListeners : list Module :=
  [telemetry; juliaexepath; repl; weave; tasks;
   smallcommands; packagepath; openpackagedirectory].

(** Order of the [activate] and [onNewLanguageClient] calls. *)
Definition featureModules : list Module :=
  [juliaexepath; repl; weave; tasks;
   smallcommands; packagepath; openpackagedirectory].

Record SpawnOptions := mkSpawnOptions {
  cwd : string;
  env : list (string * string)
}.

Record Executable := mkExecutable {
  command : string;
  args : list string;
  options : SpawnOptions
}.

Record ServerOptions := mkServerOptions {
  run : Executable;
  debug : Executable
}.

(** What the host process provides: [g_context.extensionPath],
    [process.pid], [process.env.HOME] ([None] when undefined),
    [os.homedir()], [path.join] and the stored value of the
    [julia.enableTelemetry] setting ([None] when null). *)
Record Host := mkHost {
  extensionPath : string;
  pid : N;
  env_HOME : option string;
  os_homedir : string;
  path_join : list string -> string;
  enableTelemetry : option bool
}.

(** The callbacks handed to [onNotification]. *)
Inductive Handler := ShowStatus | HideStatus.

(** Calls that leave the manager, in the order they are made. *)
Inductive Effect :=
| TelemetryInit
| TelemetryTraceEvent (name : string)
| TelemetryStartLsCrashServer
| ConsoleLog (msg : string)
| LoadSettings (loaded : ISettings)
| CreateStatusBarItem
| StatusShow
| StatusHide
| StatusSetText (txt : string)
| SubscribeConfigurationChange
| SetLanguageConfiguration (lang : string)
| ModuleActivate (m : Module) (s : ISettings)
| OnDidChangeConfiguration (m : Module) (s : ISettings)
| OnNewLanguageClient (m : Module) (c : option Client)
| ClientStop (c : Client)
| ClientStopCompleted (c : Client)
| GetPkgPath (t : Task)
| GetJuliaExePath (t : Task)
| CreateFileSystemWatcher (glob : string)
| NewLanguageClient (c : Client) (name : string) (so : ServerOptions)
| RegisterProposedFeatures (c : Client)
| ClientStart (c : Client) (returned : bool)
| ShowErrorMessage (msg : string)
| ShowInformationMessage (msg : string)
| ClientOnReady (c : Client)
| ClientOnNotification (c : Client) (method : string) (h : Handler)
| TaskRejected (t : Task) (reason : string)
| ReadyCallbackThrew (c : Client) (reason : string).

Record StatusBarItem := mkStatusBarItem {
  visible : bool;
  text : string
}.

(** Where a suspended [startLanguageServer] invocation waits, with the
    locals that are live across the [await]. *)
Inductive Stage :=
| AwaitPkgPath
| AwaitJuliaExePath (serverArgsRun serverArgsDebug : list string)
                    (spawnOptions : SpawnOptions).

(** The server process behind a client, as the outside world sees it:
    started, asked to stop, or gone. *)
Inductive ClientState := Running | Stopping | Stopped.

Record State := mkState {
  host : Host;
  g_settings : ISettings;
  g_languageClient : option Client;
  g_serverstatus : StatusBarItem;
  launches : list (Task * Stage);
  readyCallbacks : list Client;
  handlers : list (Client * string * Handler);
  clients : list (Client * ClientState);
  nextClient : nat;
  nextTask : nat;
  log : list Effect
}.

(** ** Constants of the source *)

Definition g_serverBusyNotification : string := "window/setStatusBusy".
Definition g_serverReadyNotification : string := "window/setStatusReady".

Definition couldNotStart : string :=
  "Could not start the julia language server. Make sure the configuration setting julia.executablePath points to the julia binary.".

Definition busyText : string := "Julia Language Server is busy".

Definition telemetryQuestion : string :=
  "To help improve the julia extension, you can anonymously send usage statistics to the team.".

(** ** JavaScript primitives used by the source *)

Definition option_string_eqb (a b : option string) : bool :=
  match a, b with
  | Some x, Some y => String.eqb x y
  | None, None => true
  | _, _ => false
  end.

(** [a != b] on values that are strings or null. *)
Definition js_neq (a b : option string) : bool :=
  negb (option_string_eqb a b).

(** Truthiness of a value that is a string or undefined: the empty
    string is falsy. *)
Definition js_truthy (v : option string) : bool :=
  match v with
  | Some s => negb (String.eqb s "")
  | None => false
  end.

(** [n.toString()] for a non-negative integer. *)
Definition toString (n : N) : string :=
  NilZero.string_of_uint (N.to_uint n).

(** ** Field updates and the effect log *)

Definition emit (es : list Effect) (s : State) : State :=
  mkState (host s) (g_settings s) (g_languageClient s) (g_serverstatus s)
          (launches s) (readyCallbacks s) (handlers s) (clients s)
          (nextClient s) (nextTask s) (log s ++ es).

Definition set_languageClient (c : option Client) (s : State) : State :=
  mkState (host s) (g_settings s) c (g_serverstatus s)
          (launches s) (readyCallbacks s) (handlers s) (clients s)
          (nextClient s) (nextTask s) (log s).

Definition set_serverstatus (b : StatusBarItem) (s : State) : State :=
  mkState (host s) (g_settings s) (g_languageClient s) b
          (launches s) (readyCallbacks s) (handlers s) (clients s)
          (nextClient s) (nextTask s) (log s).

Definition set_launches (l : list (Task * Stage)) (s : State) : State :=
  mkState (host s) (g_settings s) (g_languageClient s) (g_serverstatus s)
          l (readyCallbacks s) (handlers s) (clients s)
          (nextClient s) (nextTask s) (log s).

Definition set_readyCallbacks (l : list Client) (s : State) : State :=
  mkState (host s) (g_settings s) (g_languageClient s) (g_serverstatus s)
          (launches s) l (handlers s) (clients s)
          (nextClient s) (nextTask s) (log s).

Definition set_handlers (l : list (Client * string * Handler)) (s : State)
  : State :=
  mkState (host s) (g_settings s) (g_languageClient s) (g_serverstatus s)
          (launches s) (readyCallbacks s) l (clients s)
          (nextClient s) (nextTask s) (log s).

Definition set_clients (l : list (Client * ClientState)) (s : State)
  : State :=
  mkState (host s) (g_settings s) (g_languageClient s) (g_serverstatus s)
          (launches s) (readyCallbacks s) (handlers s) l
          (nextClient s) (nextTask s) (log s).

Definition fresh_client (s : State) : State :=
  mkState (host s) (g_settings s) (g_languageClient s) (g_serverstatus s)
          (launches s) (readyCallbacks s) (handlers s) (clients s)
          (S (nextClient s)) (nextTask s) (log s).

Definition fresh_task (s : State) : State :=
  mkState (host s) (g_settings s) (g_languageClient s) (g_serverstatus s)
          (launches s) (readyCallbacks s) (handlers s) (clients s)
          (nextClient s) (S (nextTask s)) (log s).

(** ** The status bar item *)

Definition statusShow (s : State) : State :=
  emit [StatusShow]
       (set_serverstatus (mkStatusBarItem true (text (g_serverstatus s))) s).

Definition statusHide (s : State) : State :=
  emit [StatusHide]
       (set_serverstatus (mkStatusBarItem false (text (g_serverstatus s))) s).

Definition statusSetText (t : string) (s : State) : State :=
  emit [StatusSetText t]
       (set_serverstatus (mkStatusBarItem (visible (g_serverstatus s)) t) s).

(** The two display states: the indicator is on screen while the server
    is busy and hidden once it is ready. *)
Inductive Display := Busy | Ready.

Definition display (s : State) : Display :=
  if visible (g_serverstatus s) then Busy else Ready.

(** ** The language clients, seen from outside *)

Fixpoint clientState (l : list (Client * ClientState)) (c : Client)
  : option ClientState :=
  match l with
  | [] => None
  | (c', st) :: l' => if Nat.eqb c' c then Some st else clientState l' c
  end.

Fixpoint setClientState (l : list (Client * ClientState)) (c : Client)
         (st : ClientState) : list (Client * ClientState) :=
  match l with
  | [] => []
  | (c', st') :: l' =>
      if Nat.eqb c' c then (c', st) :: l'
      else (c', st') :: setClientState l' c st
  end.

(** [client.stop()]: the call returns at once; the server is asked to
    shut down and is gone only when [StopCompleted] arrives. *)
Definition clientStop (c : Client) (s : State) : State :=
  emit [ClientStop c]
       (match clientState (clients s) c with
        | Some Running => set_clients (setClientState (clients s) c Stopping) s
        | _ => s
        end).

(** [client.onNotification(type, handler)]: one handler per method name
    and client, the last registration wins.  Only the bookkeeping of a
    registration is recorded; whether the library accepts a registration
    on a client whose handshake is still pending is left open, since no
    run of the source as it stands gets to the callback that
    registers. *)
Fixpoint registerHandler (l : list (Client * string * Handler))
         (c : Client) (m : string) (h : Handler)
  : list (Client * string * Handler) :=
  match l with
  | [] => [(c, m, h)]
  | (c', m', h') :: l' =>
      if Nat.eqb c' c && String.eqb m' m then (c, m, h) :: l'
      else (c', m', h') :: registerHandler l' c m h
  end.

Fixpoint lookupHandler (l : list (Client * string * Handler))
         (c : Client) (m : string) : option Handler :=
  match l with
  | [] => None
  | (c', m', h') :: l' =>
      if Nat.eqb c' c && String.eqb m' m then Some h'
      else lookupHandler l' c m
  end.

Definition clientOnNotification (c : Client) (m : string) (h : Handler)
           (s : State) : State :=
  emit [ClientOnNotification c m h]
       (set_handlers (registerHandler (handlers s) c m h) s).

(** ** The functions of [extension.ts] *)

Definition setLanguageClient (languageClient : option Client) (s : State)
  : State :=
  emit (map (fun m => OnNewLanguageClient m languageClient) featureModules)
       (set_languageClient languageClient s).

(** [startLanguageServer] up to its first [await]: the call to
    [packagepath.getPkgPath()] is made and the invocation is suspended. *)
Definition startLanguageServer (s : State) : State :=
  let t := nextTask s in
  emit [GetPkgPath t]
       (set_launches (launches s ++ [(t, AwaitPkgPath)]) (fresh_task s)).

Definition serverArgs (h : Host) (originalJuliaPkgDir debugFlag : string)
  : list string :=
  ["--startup-file=no"; "--history-file=no"; "main.jl";
   originalJuliaPkgDir; debugFlag; toString (pid h)].

Definition spawnOptionsOf (h : Host) : SpawnOptions :=
  mkSpawnOptions
    (path_join h [extensionPath h; "scripts"; "languageserver"])
    [("JULIA_PKGDIR",
      path_join h [extensionPath h; "scripts"; "languageserver";
                   "julia_pkgdir"]);
     ("HOME",
      if js_truthy (env_HOME h)
      then match env_HOME h with Some v => v | None => "" end
      else os_homedir h)].

Fixpoint findLaunch (l : list (Task * Stage)) (t : Task) : option Stage :=
  match l with
  | [] => None
  | (t', st) :: l' => if Nat.eqb t' t then Some st else findLaunch l' t
  end.

Definition dropLaunch (l : list (Task * Stage)) (t : Task)
  : list (Task * Stage) :=
  filter (fun p => negb (Nat.eqb (fst p) t)) l.

(** The invocation resumed after [await packagepath.getPkgPath()];
    [r = None] is a rejected promise. *)
Definition startLanguageServer_afterPkgPath (t : Task) (r : option string)
           (s : State) : State :=
  match r with
  | None =>
      emit [ShowErrorMessage couldNotStart]
           (set_launches (dropLaunch (launches s) t) s)
  | Some originalJuliaPkgDir =>
      let serverArgsRun := serverArgs (host s) originalJuliaPkgDir "--debug=no" in
      let serverArgsDebug := serverArgs (host s) originalJuliaPkgDir "--debug=yes" in
      let spawnOptions := spawnOptionsOf (host s) in
      emit [GetJuliaExePath t]
           (set_launches
              (dropLaunch (launches s) t
                 ++ [(t, AwaitJuliaExePath serverArgsRun serverArgsDebug
                                           spawnOptions)]) s)
  end.

(** The names bound where [clientOptions] is built: the imports of
    lines 4 to 21, the module-level variables and functions, and the
    locals of [startLanguageServer].  No global of the host carries any
    other name the function reads. *)
Definition namesInScope : list string :=
  ["vscode"; "fs"; "path"; "net"; "os"; "telemetry"; "spawn";
   "ChildProcess"; "LanguageClient"; "LanguageClientOptions";
   "SettingMonitor"; "ServerOptions"; "TransportKind"; "StreamInfo";
   "vslc"; "rpc"; "repl"; "weave"; "tasks"; "settings"; "smallcommands";
   "packagepath"; "openpackagedirectory"; "juliaexepath";
   "g_settings"; "g_languageClient"; "g_context"; "g_serverstatus";
   "g_serverBusyNotification"; "g_serverReadyNotification";
   "activate"; "deactivate"; "setLanguageClient"; "configChanged";
   "startLanguageServer";
   "originalJuliaPkgDir"; "serverArgsRun"; "serverArgsDebug";
   "spawnOptions"; "jlexepath"; "serverOptions"; "clientOptions"].

(** Reading an identifier succeeds when something binds it and throws a
    [ReferenceError] otherwise. *)
Definition isBound (name : string) : bool :=
  existsb (String.eqb name) namesInScope.

(** Lines 164 to 186, the part of [startLanguageServer] that follows the
    construction of [clientOptions]: the client is constructed, assigned
    to [g_languageClient] and started; [start_returns] says whether
    [g_languageClient.start()] returns or throws. *)
Definition startLanguageServer_withClientOptions (t : Task)
           (serverOptions : ServerOptions) (start_returns : bool)
           (s : State) : State :=
  let c := nextClient s in
  let s := emit [NewLanguageClient c "julia Language Server" serverOptions]
                (set_languageClient (Some c) (fresh_client s)) in
  let s := emit [RegisterProposedFeatures c] s in
  let s :=
    if start_returns then
      setLanguageClient (Some c)
        (emit [ClientStart c true]
              (set_clients (clients s ++ [(c, Running)]) s))
    else
      set_languageClient None
        (emit [ClientStart c false; ShowErrorMessage couldNotStart] s) in
  match g_languageClient s with
  | Some c' =>
      emit [ClientOnReady c']
           (set_readyCallbacks (readyCallbacks s ++ [c']) s)
  | None => emit [TaskRejected t "TypeError"] s
  end.

(** The invocation resumed after [await juliaexepath.getJuliaExePath()].
    The await is outside any [try]: a rejection ends the invocation with
    a rejected promise.  Building [clientOptions] first creates the
    file-system watcher and then reads [RevealOutputChannelOn], again
    outside any [try]: as the import of line 11 does not bind that name,
    the read throws and the invocation ends there. *)
Definition startLanguageServer_afterJuliaExePath (t : Task)
           (serverArgsRun serverArgsDebug : list string)
           (spawnOptions : SpawnOptions)
           (r : option string) (start_returns : bool) (s : State) : State :=
  let s := set_launches (dropLaunch (launches s) t) s in
  match r with
  | None => emit [TaskRejected t "getJuliaExePath"] s
  | Some jlexepath =>
      let serverOptions :=
        mkServerOptions (mkExecutable jlexepath serverArgsRun spawnOptions)
                        (mkExecutable jlexepath serverArgsDebug spawnOptions) in
      let s := emit [CreateFileSystemWatcher "**/*.jl"] s in
      if isBound "RevealOutputChannelOn" then
        startLanguageServer_withClientOptions t serverOptions start_returns s
      else emit [TaskRejected t "ReferenceError"] s
  end.

Fixpoint removeFirst (l : list Client) (c : Client) : list Client :=
  match l with
  | [] => []
  | c' :: l' => if Nat.eqb c' c then l' else c' :: removeFirst l' c
  end.

(** The callback given to [g_languageClient.onReady().then]: it reads the
    global [g_languageClient] when it runs. *)
Definition onReady_then (c : Client) (s : State) : State :=
  match g_languageClient s with
  | Some cur =>
      clientOnNotification cur g_serverReadyNotification HideStatus
        (clientOnNotification cur g_serverBusyNotification ShowStatus s)
  | None => emit [ReadyCallbackThrew c "TypeError"] s
  end.

Definition configChanged (newSettings : ISettings) (s : State) : State :=
  let s := emit (LoadSettings newSettings
                 :: map (fun m => OnDidChangeConfiguration m newSettings)
                        configListeners) s in
  let need_to_restart_server :=
    js_neq (juliaExePath (g_settings s)) (juliaExePath newSettings) in
  if need_to_restart_server then
    let s := match g_languageClient s with
             | Some c => setLanguageClient None (clientStop c s)
             | None => s
             end in
    startLanguageServer s
  else s.

Definition activate (h : Host) (loaded : ISettings) : State :=
  let s := mkState h loaded None (mkStatusBarItem false "")
                   [] [] [] [] 0 0
                   [TelemetryInit; TelemetryTraceEvent "activate";
                    TelemetryStartLsCrashServer;
                    ConsoleLog "Activating extension language-julia";
                    LoadSettings loaded] in
  let s := emit [CreateStatusBarItem] s in
  let s := statusShow s in
  let s := statusSetText busyText s in
  let s := emit [SubscribeConfigurationChange;
                 SetLanguageConfiguration "julia"] s in
  let s := emit (map (fun m => ModuleActivate m (g_settings s))
                     featureModules) s in
  let s := startLanguageServer s in
  match enableTelemetry h with
  | None => emit [ShowInformationMessage telemetryQuestion] s
  | Some _ => s
  end.

Definition deactivate (s : State) : State := s.

(** ** The host event loop *)

(** What can happen between two turns of the manager: the configuration
    changes, one of the awaited promises settles, a client's [onReady]
    promise settles, a notification frame arrives from a client's server,
    or a server asked to stop is gone. *)
Inductive Event :=
| ConfigurationChanged (loaded : ISettings)
| PkgPathSettled (t : Task) (r : option string)
| JuliaExePathSettled (t : Task) (r : option string) (start_returns : bool)
| ReadySettled (c : Client) (resolved : bool)
| NotificationReceived (c : Client) (method payload : string)
| StopCompleted (c : Client).

Definition runHandler (h : Handler) (s : State) : State :=
  match h with
  | ShowStatus => statusShow s
  | HideStatus => statusHide s
  end.

(** One turn.  An event that cannot occur in the state (a task that is
    not waiting, a client without a pending callback, a frame from a
    server that is gone or for which nothing is registered) changes
    nothing. *)
Definition step (s : State) (e : Event) : State :=
  match e with
  | ConfigurationChanged loaded => configChanged loaded s
  | PkgPathSettled t r =>
      match findLaunch (launches s) t with
      | Some AwaitPkgPath => startLanguageServer_afterPkgPath t r s
      | _ => s
      end
  | JuliaExePathSettled t r start_returns =>
      match findLaunch (launches s) t with
      | Some (AwaitJuliaExePath a d o) =>
          startLanguageServer_afterJuliaExePath t a d o r start_returns s
      | _ => s
      end
  | ReadySettled c resolved =>
      if existsb (Nat.eqb c) (readyCallbacks s) then
        let s := set_readyCallbacks (removeFirst (readyCallbacks s) c) s in
        if resolved then onReady_then c s else s
      else s
  | NotificationReceived c m _ =>
      match clientState (clients s) c with
      | Some Running | Some Stopping =>
          match lookupHandler (handlers s) c m with
          | Some h => runHandler h s
          | None => s
          end
      | _ => s
      end
  | StopCompleted c =>
      match clientState (clients s) c with
      | Some Stopping =>
          emit [ClientStopCompleted c]
               (set_clients (setClientState (clients s) c Stopped) s)
      | _ => s
      end
  end.

Definition runEvents (s : State) (evs : list Event) : State :=
  fold_left step evs s.

(** ** Observations on the effect log *)

Definition isShowErrorMessage (e : Effect) : bool :=
  match e with ShowErrorMessage _ => true | _ => false end.

Definition isNewLanguageClient (e : Effect) : bool :=
  match e with NewLanguageClient _ _ _ => true | _ => false end.

Definition isGetPkgPath (e : Effect) : bool :=
  match e with GetPkgPath _ => true | _ => false end.

Definition Module_eqb (a b : Module) : bool :=
  match a, b with
  | telemetry, telemetry | juliaexepath, juliaexepath | repl, repl
  | weave, weave | tasks, tasks | smallcommands, smallcommands
  | packagepath, packagepath
  | openpackagedirectory, openpackagedirectory => true
  | _, _ => false
  end.

(** [OnNewLanguageClient m (Some c)]: module [m] is handed client [c]. *)
Definition isHandover (m : Module) (c : Client) (e : Effect) : bool :=
  match e with
  | OnNewLanguageClient m' (Some c') => Module_eqb m' m && Nat.eqb c' c
  | _ => false
  end.

Definition isModuleCall (e : Effect) : bool :=
  match e with
  | ModuleActivate _ _ | OnDidChangeConfiguration _ _
  | OnNewLanguageClient _ _ => true
  | _ => false
  end.

Definition count (p : Effect -> bool) (l : list Effect) : nat :=
  List.length (filter p l).

(** The number of user-facing error messages shown so far. *)
Definition errorCount (s : State) : nat := count isShowErrorMessage (log s).

(** The settings snapshot returned by the latest [loadSettings()]. *)
Fixpoint lastLoaded (l : list Effect) : option ISettings :=
  match l with
  | [] => None
  | e :: l' =>
      match lastLoaded l' with
      | Some s => Some s
      | None => match e with LoadSettings s => Some s | _ => None end
      end
  end.

(** Clients whose server was started and has not been asked to stop. *)
Definition isRunning (p : Client * ClientState) : bool :=
  match snd p with Running => true | _ => false end.

Definition liveCount (s : State) : nat :=
  List.length (filter isRunning (clients s)).


(** The event does not ask for a restart while a launch is suspended. *)
Definition noReentrantStart (s : State) (e : Event) : bool :=
  match e with
  | ConfigurationChanged ns =>
      if js_neq (juliaExePath (g_settings s)) (juliaExePath ns)
      then match launches s with [] => true | _ :: _ => false end
      else true
  | _ => true
  end.

(** A configuration change that asks for a restart arrives only when no
    [startLanguageServer] invocation is suspended. *)
Fixpoint noRestartDuringLaunch (s : State) (evs : list Event) : bool :=
  match evs with
  | [] => true
  | e :: evs' =>
      noReentrantStart s e && noRestartDuringLaunch (step s e) evs'
  end.

(** ** Displays and handlers *)

Definition handlerDisplay (h : Handler) : Display :=
  match h with
  | ShowStatus => Busy
  | HideStatus => Ready
  end.

(** The handler a frame from client [c] on method [m] reaches: the one
    registered on [c] for [m], as long as the server of [c] is not
    gone. *)
Definition deliveredHandler (s : State) (c : Client) (m : string)
  : option Handler :=
  match clientState (clients s) c with
  | Some Running | Some Stopping => lookupHandler (handlers s) c m
  | _ => None
  end.

(** What holds of the manager as long as no restart is asked for while
    a launch is suspended: a suspended launch and a current client
    exclude each other, a running server belongs to the current client,
    and client identities are fresh. *)
Record Orderly (s : State) : Prop := mkOrderly {
  orderly_single :
    List.length (launches s)
    + (match g_languageClient s with Some _ => 1 | None => 0 end) <= 1;
  orderly_running :
    forall c, clientState (clients s) c = Some Running ->
              g_languageClient s = Some c;
  orderly_fresh :
    forall c, In c (map fst (clients s)) -> c < nextClient s;
  orderly_nodup : NoDup (map fst (clients s))
}.

(** The two registrations made by the ready callback. *)
Definition knownHandler (e : Client * string * Handler) : Prop :=
  (snd (fst e) = g_serverBusyNotification /\ snd e = ShowStatus)
  \/ (snd (fst e) = g_serverReadyNotification /\ snd e = HideStatus).




(** ** Scenario data *)

Module Scenario.

Definition host0 : Host :=
  mkHost "/ext" 4242%N (Some "/home/u") "/fallback"
         (String.concat "/") (Some false).

Definition settingsA : ISettings :=
  mkSettings (Some "/usr/bin/julia") [].

Definition settingsB : ISettings :=
  mkSettings (Some "/opt/julia/bin/julia") [].

(** Same executable path as [settingsB]; another field differs. *)
Definition settingsB' : ISettings :=
  mkSettings (Some "/opt/julia/bin/julia") [("julia.runlinter", "false")].

Definition activated : State := activate host0 settingsA.

(** Activation followed by a launch both resolvers of which succeed. *)
Definition launched : State :=
  runEvents activated
    [PkgPathSettled 0 (Some "/pkg");
     JuliaExePathSettled 0 (Some "/usr/bin/julia") true].

(** The same run followed by a handshake result for client 0. *)
Definition firstSession : State :=
  step launched (ReadySettled 0 true).

(** The executable path is changed; the resolvers of the relaunch
    succeed as well. *)
Definition secondSession : State :=
  runEvents firstSession
    [ConfigurationChanged settingsB;
     PkgPathSettled 1 (Some "/pkg");
     JuliaExePathSettled 1 (Some "/opt/julia/bin/julia") true;
     ReadySettled 1 true].

(** The same run followed by a ready frame sent in the name of
    client 1. *)
Definition secondSessionIdle : State :=
  step secondSession (NotificationReceived 1 g_serverReadyNotification "").

(** The executable path is changed once, right after activation. *)
Definition pathChangedOnce : State :=
  step activated (ConfigurationChanged settingsB).

(** A state in which [g_languageClient] holds client 0, as the
    assignment of line 164 would leave it. *)
Definition holdingClient : State :=
  set_languageClient (Some 0) activated.

End Scenario.


(** ** Further observations on runs *)


(** [m.onDidChangeConfiguration] was called. *)
Definition isForwardTo (m : Module) (e : Effect) : bool :=
  match e with
  | OnDidChangeConfiguration m' _ => Module_eqb m' m
  | _ => false
  end.

Definition isConfigurationChanged (e : Event) : bool :=
  match e with ConfigurationChanged _ => true | _ => false end.

Definition isNotificationReceived (e : Event) : bool :=
  match e with NotificationReceived _ _ _ => true | _ => false end.

(** The event is a configuration change whose executable path differs
    from the one of the snapshot [loaded]. *)
Definition asksRestart (loaded : ISettings) (e : Event) : bool :=
  match e with
  | ConfigurationChanged ns =>
      js_neq (juliaExePath loaded) (juliaExePath ns)
  | _ => false
  end.

(** The event settles one of the two promises awaited by task [t]. *)
Definition settles (t : Task) (e : Event) : bool :=
  match e with
  | PkgPathSettled t' _ | JuliaExePathSettled t' _ _ => Nat.eqb t' t
  | _ => false
  end.





(** [m.onNewLanguageClient] was called with a client. *)
Definition isHandoverClient (m : Module) (e : Effect) : bool :=
  match e with
  | OnNewLanguageClient m' (Some _) => Module_eqb m' m
  | _ => false
  end.


(** ** Basic facts about a turn *)

Section Turn.

Variable s : State.

Lemma log_emit (es : list Effect) : log (emit es s) = log s ++ es.
Proof. reflexivity. Qed.

Lemma log_setLanguageClient (c : option Client) :
  log (setLanguageClient c s)
  = log s ++ map (fun m => OnNewLanguageClient m c) featureModules.
Proof. reflexivity. Qed.

Lemma log_clientStop (c : Client) :
  log (clientStop c s) = log s ++ [ClientStop c].
Proof.
  unfold clientStop.
  destruct (clientState (clients s) c) as [[ | | ] | ]; reflexivity.
Qed.

Lemma log_startLanguageServer :
  log (startLanguageServer s) = log s ++ [GetPkgPath (nextTask s)].
Proof. reflexivity. Qed.

Lemma g_languageClient_clientStop (c : Client) :
  g_languageClient (clientStop c s) = g_languageClient s.
Proof.
  unfold clientStop.
  destruct (clientState (clients s) c) as [[ | | ] | ]; reflexivity.
Qed.

Lemma nextTask_clientStop (c : Client) :
  nextTask (clientStop c s) = nextTask s.
Proof.
  unfold clientStop.
  destruct (clientState (clients s) c) as [[ | | ] | ]; reflexivity.
Qed.

End Turn.

(** A turn only appends to the log. *)
Lemma step_log_extends (s : State) (e : Event) :
  exists es, log (step s e) = log s ++ es.
Proof.
  destruct e as [ns | t r | t r b | c ok | c m p | c]; simpl.
  - unfold configChanged.
    destruct (js_neq _ _); [ | eexists; reflexivity ].
    cbn [g_languageClient emit].
    destruct (g_languageClient s) as [c | ].
    + rewrite log_startLanguageServer, log_setLanguageClient, log_clientStop.
      rewrite log_emit, <- !app_assoc. eexists; reflexivity.
    + rewrite log_startLanguageServer, log_emit, <- !app_assoc.
      eexists; reflexivity.
  - destruct (findLaunch (launches s) t) as [[ | a d o] | ];
      try (exists []; symmetry; apply app_nil_r).
    destruct r; eexists; reflexivity.
  - destruct (findLaunch (launches s) t) as [[ | a d o] | ];
      try (exists []; symmetry; apply app_nil_r).
    destruct r as [exe | ]; [ | eexists; reflexivity ].
    destruct b; cbn; rewrite <- ?app_assoc; eexists; reflexivity.
  - destruct (existsb _ _); [ | exists []; symmetry; apply app_nil_r ].
    destruct ok; [ | exists []; symmetry; apply app_nil_r ].
    unfold onReady_then; cbn.
    destruct (g_languageClient s); cbn; rewrite <- ?app_assoc;
      eexists; reflexivity.
  - destruct (clientState (clients s) c) as [[ | | ] | ];
      try (exists []; symmetry; apply app_nil_r);
      (destruct (lookupHandler (handlers s) c m) as [[ | ] | ];
       [ eexists; reflexivity | eexists; reflexivity
       | exists []; symmetry; apply app_nil_r ]).
  - destruct (clientState (clients s) c) as [[ | | ] | ];
      try (exists []; symmetry; apply app_nil_r).
    eexists; reflexivity.
Qed.

Lemma runEvents_log_extends (evs : list Event) :
  forall s, exists es, log (runEvents s evs) = log s ++ es.
Proof.
  induction evs as [ | e evs IH]; intros s; simpl.
  - exists []; symmetry; apply app_nil_r.
  - destruct (IH (step s e)) as [es2 H2].
    destruct (step_log_extends s e) as [es1 H1].
    exists (es1 ++ es2). rewrite H2, H1, app_assoc. reflexivity.
Qed.

(** No turn assigns [g_settings]: it keeps the snapshot loaded by
    [activate]. *)
Lemma step_g_settings (s : State) (e : Event) :
  g_settings (step s e) = g_settings s.
Proof.
  destruct e as [ns | t r | t r b | c ok | c m p | c]; simpl.
  - unfold configChanged.
    destruct (js_neq _ _); [ | reflexivity ].
    cbn [g_languageClient emit].
    destruct (g_languageClient s) as [c | ]; [ | reflexivity ].
    unfold clientStop.
    destruct (clientState _ c) as [[ | | ] | ]; reflexivity.
  - destruct (findLaunch (launches s) t) as [[ | a d o] | ]; try reflexivity.
    destruct r; reflexivity.
  - destruct (findLaunch (launches s) t) as [[ | a d o] | ]; try reflexivity.
    destruct r as [exe | ]; [ | reflexivity ].
    destruct b; reflexivity.
  - destruct (existsb _ _); [ | reflexivity ].
    destruct ok; [ | reflexivity ].
    unfold onReady_then; cbn.
    destruct (g_languageClient s); reflexivity.
  - destruct (clientState (clients s) c) as [[ | | ] | ]; try reflexivity;
      destruct (lookupHandler (handlers s) c m) as [[ | ] | ]; reflexivity.
  - destruct (clientState (clients s) c) as [[ | | ] | ]; reflexivity.
Qed.

Lemma runEvents_g_settings (evs : list Event) :
  forall s, g_settings (runEvents s evs) = g_settings s.
Proof.
  induction evs as [ | e evs IH]; intros s; simpl; [ reflexivity | ].
  rewrite IH. apply step_g_settings.
Qed.

(** The restart test of [configChanged] reads [g_settings]: without a
    difference to that snapshot the turn only forwards the new one. *)
Lemma configChanged_same_path (s : State) (ns : ISettings) :
  js_neq (juliaExePath (g_settings s)) (juliaExePath ns) = false ->
  configChanged ns s
  = emit (LoadSettings ns
          :: map (fun m => OnDidChangeConfiguration m ns) configListeners) s.
Proof.
  intros H. unfold configChanged. cbn [g_settings emit]. rewrite H.
  reflexivity.
Qed.

(** Every configuration change is forwarded to all listeners first. *)
Lemma configChanged_forwards (s : State) (ns : ISettings) :
  exists rest,
    log (configChanged ns s)
    = log s ++ (LoadSettings ns
                :: map (fun m => OnDidChangeConfiguration m ns) configListeners)
            ++ rest.
Proof.
  unfold configChanged.
  destruct (js_neq _ _).
  - cbn [g_languageClient emit].
    destruct (g_languageClient s) as [c | ].
    + rewrite log_startLanguageServer, log_setLanguageClient, log_clientStop.
      rewrite log_emit, <- !app_assoc. eexists; reflexivity.
    + rewrite log_startLanguageServer, log_emit, <- !app_assoc.
      eexists; reflexivity.
  - exists []. rewrite app_nil_r. reflexivity.
Qed.

(** ** No client is ever constructed *)

Lemma isBound_RevealOutputChannelOn : isBound "RevealOutputChannelOn" = false.
Proof. reflexivity. Qed.





(** ** Suspended invocations *)

Lemma findLaunch_dropLaunch (l : list (Task * Stage)) (t : Task) :
  findLaunch (dropLaunch l t) t = None.
Proof.
  induction l as [ | [t' st] l IH]; simpl; [ reflexivity | ].
  destruct (Nat.eqb t' t) eqn:E; simpl; [ exact IH | ].
  rewrite E. exact IH.
Qed.

Lemma findLaunch_app (l1 l2 : list (Task * Stage)) (t : Task) :
  findLaunch (l1 ++ l2) t
  = match findLaunch l1 t with
    | Some st => Some st
    | None => findLaunch l2 t
    end.
Proof.
  induction l1 as [ | [t' st] l1 IH]; simpl; [ reflexivity | ].
  destruct (Nat.eqb t' t); [ reflexivity | exact IH ].
Qed.

Lemma findLaunch_requeued (l : list (Task * Stage)) (t : Task) (st : Stage) :
  findLaunch (dropLaunch l t ++ [(t, st)]) t = Some st.
Proof.
  rewrite findLaunch_app, findLaunch_dropLaunch. simpl.
  rewrite Nat.eqb_refl. reflexivity.
Qed.

(** ** The launch specification *)

(** C6: every launch whose package path resolves builds, before it
    asks for the executable path, the two argument lists
    [--startup-file=no], [--history-file=no], the entry script, the
    resolved package directory, [--debug=no] (respectively
    [--debug=yes]) and the host process id in decimal, in this order,
    and spawn options whose environment holds [JULIA_PKGDIR], a
    directory below the extension's language-server scripts, and
    [HOME], which is the ambient [HOME] when that is set (to a
    non-empty string, the source testing its truthiness) and
    [os.homedir()] otherwise.  The suspended invocation holds exactly
    these values. *)
Theorem C6_launch_contract (s : State) (t : Task) (dir : string) :
  findLaunch (launches s) t = Some AwaitPkgPath ->
  exists home,
    findLaunch (launches (step s (PkgPathSettled t (Some dir)))) t
    = Some (AwaitJuliaExePath
              ["--startup-file=no"; "--history-file=no"; "main.jl"; dir;
               "--debug=no"; toString (pid (host s))]
              ["--startup-file=no"; "--history-file=no"; "main.jl"; dir;
               "--debug=yes"; toString (pid (host s))]
              (mkSpawnOptions
                 (path_join (host s)
                            [extensionPath (host s); "scripts";
                             "languageserver"])
                 [("JULIA_PKGDIR",
                   path_join (host s)
                             [extensionPath (host s); "scripts";
                              "languageserver"; "julia_pkgdir"]);
                  ("HOME", home)]))
    /\ option_map N.of_uint
                  (NilZero.uint_of_string (toString (pid (host s))))
       = Some (pid (host s))
    /\ (forall v, env_HOME (host s) = Some v -> v <> "" -> home = v)
    /\ (env_HOME (host s) = None -> home = os_homedir (host s))
    /\ (env_HOME (host s) = Some "" -> home = os_homedir (host s)).
Proof.
  intros Hwait. cbn [step]. rewrite Hwait.
  unfold startLanguageServer_afterPkgPath.
  cbn [launches emit set_launches].
  rewrite findLaunch_requeued.
  exists (if js_truthy (env_HOME (host s))
          then match env_HOME (host s) with
               | Some v => v | None => "" end
          else os_homedir (host s)).
  split; [ reflexivity | ].
  split.
  { unfold toString. rewrite NilZero.usu.
    - simpl. rewrite DecimalN.Unsigned.of_to. reflexivity.
    - destruct (pid (host s)) as [ | p]; simpl;
        [ discriminate | apply DecimalPos.Unsigned.to_uint_nonnil ]. }
  split; [ | split ].
  - intros v Hv Hne. rewrite Hv. simpl.
    destruct (String.eqb v "") eqn:E; [ | reflexivity ].
    apply String.eqb_eq in E. contradiction.
  - intros Hv. rewrite Hv. reflexivity.
  - intros Hv. rewrite Hv. reflexivity.
Qed.

Lemma C6_launch_contract_witness :
  exists home,
    findLaunch
      (launches (step Scenario.activated (PkgPathSettled 0 (Some "/pkg")))) 0
    = Some (AwaitJuliaExePath
              ["--startup-file=no"; "--history-file=no"; "main.jl"; "/pkg";
               "--debug=no"; "4242"]
              ["--startup-file=no"; "--history-file=no"; "main.jl"; "/pkg";
               "--debug=yes"; "4242"]
              (mkSpawnOptions
                 "/ext/scripts/languageserver"
                 [("JULIA_PKGDIR",
                   "/ext/scripts/languageserver/julia_pkgdir");
                  ("HOME", home)]))
    /\ option_map N.of_uint (NilZero.uint_of_string "4242") = Some 4242%N
    /\ (forall v, Some "/home/u" = Some v -> v <> "" -> home = v)
    /\ (Some "/home/u" = None -> home = "/fallback")
    /\ (Some "/home/u" = Some "" -> home = "/fallback").
Proof.
  exact (C6_launch_contract Scenario.activated 0 "/pkg" eq_refl).
Defined.

(** ** Notification channels *)

(** C7, as the source has it: the two notification types are named
    [window/setStatusBusy] and [window/setStatusReady], and these are
    the methods the ready callback subscribes to on the current client,
    the first with the handler that shows the status item and the
    second with the handler that hides it. *)
Theorem C7_channel_names (s : State) (c cur : Client) :
  g_languageClient s = Some cur ->
  g_serverBusyNotification = "window/setStatusBusy"
  /\ g_serverReadyNotification = "window/setStatusReady"
  /\ log (onReady_then c s)
     = log s ++ [ClientOnNotification cur "window/setStatusBusy" ShowStatus;
                 ClientOnNotification cur "window/setStatusReady" HideStatus].
Proof.
  intros Hcur. repeat split.
  unfold onReady_then. rewrite Hcur. cbn. rewrite <- app_assoc. reflexivity.
Qed.

Lemma C7_channel_names_witness :
  g_serverBusyNotification = "window/setStatusBusy"
  /\ g_serverReadyNotification = "window/setStatusReady"
  /\ log (onReady_then 0 Scenario.holdingClient)
     = log Scenario.holdingClient
       ++ [ClientOnNotification 0 "window/setStatusBusy" ShowStatus;
           ClientOnNotification 0 "window/setStatusReady" HideStatus].
Proof.
  exact (C7_channel_names Scenario.holdingClient 0 0 eq_refl).
Defined.

(** C7, as the specification words it, fails: the names are not
    [status/busy] and [status/ready]. *)
Lemma C7_spec_names_differ :
  ~ (g_serverBusyNotification = "status/busy"
     /\ g_serverReadyNotification = "status/ready").
Proof. intros [H _]. discriminate H. Qed.

(** ** Activation *)

(** The calls made by [activate], in order. *)
Lemma log_activate (h : Host) (loaded : ISettings) :
  log (activate h loaded)
  = [TelemetryInit; TelemetryTraceEvent "activate";
     TelemetryStartLsCrashServer;
     ConsoleLog "Activating extension language-julia";
     LoadSettings loaded]
    ++ [CreateStatusBarItem; StatusShow;
        StatusSetText "Julia Language Server is busy"]
    ++ [SubscribeConfigurationChange; SetLanguageConfiguration "julia"]
    ++ map (fun m => ModuleActivate m loaded) featureModules
    ++ GetPkgPath 0
    :: match enableTelemetry h with
       | None => [ShowInformationMessage telemetryQuestion]
       | Some _ => []
       end.
Proof.
  unfold activate. destruct (enableTelemetry h); reflexivity.
Qed.

(** C10: [activate] creates the status item, shows it and sets its
    text to the busy message before it calls [startLanguageServer]; when
    it returns the display is [Busy] although no client has been
    constructed, no handler is registered and no notification has been
    handled. *)
Theorem C10_status_busy_at_activation (h : Host) (loaded : ISettings) :
  let s := activate h loaded in
  display s = Busy
  /\ g_serverstatus s = mkStatusBarItem true busyText
  /\ g_languageClient s = None
  /\ clients s = []
  /\ handlers s = []
  /\ count isNewLanguageClient (log s) = 0
  /\ exists pre post,
       log s = pre ++ [CreateStatusBarItem; StatusShow;
                       StatusSetText "Julia Language Server is busy"] ++ post
       /\ count isGetPkgPath pre = 0
       /\ In (GetPkgPath 0) post.
Proof.
  cbv zeta. rewrite log_activate.
  unfold activate, display.
  destruct (enableTelemetry h);
    (repeat (split; [ reflexivity | ]));
    (eexists; eexists; split; [ reflexivity | ]);
    (split; [ reflexivity | ]);
    simpl; tauto.
Qed.

(** ** Status notifications *)

(** A frame for which the sending client has a handler runs that
    handler; nothing in the turn looks at [g_languageClient]. *)
Lemma notification_runs_handler (s : State) (c : Client) (m p : string)
      (h : Handler) :
  clientState (clients s) c <> Some Stopped ->
  clientState (clients s) c <> None ->
  lookupHandler (handlers s) c m = Some h ->
  step s (NotificationReceived c m p) = runHandler h s.
Proof.
  intros Hgone Hknown Hh. simpl.
  destruct (clientState (clients s) c) as [[ | | ] | ];
    try contradiction; rewrite Hh; reflexivity.
Qed.

Lemma display_statusShow (s : State) : display (statusShow s) = Busy.
Proof. reflexivity. Qed.

Lemma display_statusHide (s : State) : display (statusHide s) = Ready.
Proof. reflexivity. Qed.

(** ** The handshake-then-toggle scenario *)

(** C8, evaluated where it fails: after activation both resolvers
    succeed, which is the launch the scenario starts from.  Building
    [clientOptions] reads [RevealOutputChannelOn], a name the import of
    line 11 leaves out: the invocation ends with a [ReferenceError]
    before the client is constructed.  No module is handed a client
    (the claim asks for exactly one handover), no handler is
    registered, and whatever handshake result or busy and ready frames
    arrive afterwards change nothing: the display still reads [Busy]
    after the ready frame, where the claim asks for [Ready]. *)
Theorem C8_launch_ends_before_client (h : Host) (loaded : ISettings)
        (dir exe p1 p2 : string) (b : bool) :
  let launched := runEvents (activate h loaded)
                    [PkgPathSettled 0 (Some dir);
                     JuliaExePathSettled 0 (Some exe) b] in
  let afterFrames :=
    runEvents launched
      [ReadySettled 0 true;
       NotificationReceived 0 g_serverBusyNotification p1;
       NotificationReceived 0 g_serverReadyNotification p2] in
  log launched
  = log (activate h loaded)
    ++ [GetJuliaExePath 0; CreateFileSystemWatcher "**/*.jl";
        TaskRejected 0 "ReferenceError"]
  /\ g_languageClient launched = None
  /\ handlers launched = []
  /\ (forall m, count (isHandoverClient m) (log afterFrames) = 0)
  /\ afterFrames = launched
  /\ display afterFrames = Busy.
Proof.
  destruct h as [ep p home hd pj [tel | ]]; vm_compute; repeat split.
Qed.

(** ** The restart decision *)

(** Whatever has happened since activation, a configuration change
    whose executable path equals the one loaded by [activate] leaves
    the session alone and only forwards the snapshot. *)
Lemma restart_decision_reads_activation_snapshot
      (h : Host) (loaded ns : ISettings) (evs : list Event) :
  js_neq (juliaExePath loaded) (juliaExePath ns) = false ->
  step (runEvents (activate h loaded) evs) (ConfigurationChanged ns)
  = emit (LoadSettings ns
          :: map (fun m => OnDidChangeConfiguration m ns) configListeners)
         (runEvents (activate h loaded) evs).
Proof.
  intros H. simpl. apply configChanged_same_path.
  rewrite runEvents_g_settings.
  replace (g_settings (activate h loaded)) with loaded; [ exact H | ].
  unfold activate. destruct (enableTelemetry h); reflexivity.
Qed.

(** C1, evaluated where it fails: right after activation the
    executable path is changed from the one of [settingsA] to the one
    of [settingsB], and a launch is begun for it; the next change, to
    [settingsB'], keeps the executable path of the snapshot loaded
    before it, yet the handler calls [startLanguageServer] again,
    because it compares against [g_settings], which still holds the
    activation snapshot. *)
Theorem C1_restart_without_path_change :
  lastLoaded (log Scenario.pathChangedOnce) = Some Scenario.settingsB
  /\ juliaExePath Scenario.settingsB' = juliaExePath Scenario.settingsB
  /\ g_settings Scenario.pathChangedOnce = Scenario.settingsA
  /\ log (step Scenario.pathChangedOnce
               (ConfigurationChanged Scenario.settingsB'))
     = log Scenario.pathChangedOnce
       ++ (LoadSettings Scenario.settingsB'
           :: map (fun m => OnDidChangeConfiguration m Scenario.settingsB')
                  configListeners)
       ++ [GetPkgPath 2]
  /\ count isGetPkgPath
       (log (step Scenario.pathChangedOnce
                  (ConfigurationChanged Scenario.settingsB')))
     = S (count isGetPkgPath (log Scenario.pathChangedOnce)).
Proof. vm_compute. repeat split. Qed.

(** ** Failures of a launch *)

Lemma count_app (p : Effect -> bool) (l1 l2 : list Effect) :
  count p (l1 ++ l2) = count p l1 + count p l2.
Proof. unfold count. rewrite filter_app, length_app. reflexivity. Qed.

(** A rejected package-path promise is reported once: the catch block
    around the first [await] shows the error message and returns. *)
Lemma pkg_resolver_rejection_reported (h : Host) (loaded : ISettings) :
  let s := runEvents (activate h loaded) [PkgPathSettled 0 None] in
  log s = log (activate h loaded) ++ [ShowErrorMessage couldNotStart]
  /\ errorCount s = 1
  /\ count isNewLanguageClient (log s) = 0
  /\ g_languageClient s = None
  /\ launches s = [].
Proof.
  destruct h as [ep p home hd pj [tel | ]]; vm_compute; repeat split.
Qed.

(** C5, evaluated where it fails: the package path resolves and the
    promise of [getJuliaExePath] is rejected.  The second [await] is
    outside the [try]: the invocation ends with a rejected promise, no
    client is constructed, the manager has no current client, and no
    error message at all is shown, where the claim asks for one. *)
Theorem C5_exe_resolver_rejection_unreported
        (h : Host) (loaded : ISettings) (dir : string) (b : bool) :
  let s := runEvents (activate h loaded)
                     [PkgPathSettled 0 (Some dir);
                      JuliaExePathSettled 0 None b] in
  log s = log (activate h loaded)
          ++ [GetJuliaExePath 0; TaskRejected 0 "getJuliaExePath"]
  /\ errorCount s = 0
  /\ count isNewLanguageClient (log s) = 0
  /\ g_languageClient s = None
  /\ launches s = [].
Proof.
  destruct h as [ep p home hd pj [tel | ]]; vm_compute; repeat split.
Qed.

Lemma log_pkg_rejected (s : State) (t : Task) :
  log (startLanguageServer_afterPkgPath t None s)
  = log s ++ [ShowErrorMessage couldNotStart].
Proof. reflexivity. Qed.

Lemma dropLaunch_shorter (l : list (Task * Stage)) (t : Task) (st : Stage) :
  findLaunch l t = Some st ->
  List.length (dropLaunch l t) < List.length l.
Proof.
  induction l as [ | [t' st'] l IH]; simpl; [ discriminate | ].
  destruct (Nat.eqb t' t) eqn:E; simpl.
  - intros _. apply Nat.lt_succ_r. apply filter_length_le.
  - intros H. apply IH in H. lia.
Qed.

Lemma removeFirst_shorter (l : list Client) (c : Client) :
  existsb (Nat.eqb c) l = true ->
  List.length (removeFirst l c) < List.length l.
Proof.
  induction l as [ | c' l IH]; simpl; [ discriminate | ].
  rewrite (Nat.eqb_sym c c').
  destruct (Nat.eqb c' c); simpl; [ lia | ].
  intros H. apply IH in H. lia.
Qed.

(** C9, evaluated where it fails: the package path resolves and the
    promise of [getJuliaExePath] is rejected, a resolution failure.  The
    number of error messages shown is the same after the failure as
    before it, none, where the claim asks for exactly one.  The rest of
    the claim holds there: the manager has no current client and no
    suspended launch, no launch has been begun besides the one of
    [activate], and a later [startLanguageServer] call is accepted. *)
Theorem C9_exe_resolver_failure_not_surfaced
        (h : Host) (loaded : ISettings) (dir : string) (b : bool) :
  let before := runEvents (activate h loaded) [PkgPathSettled 0 (Some dir)] in
  let after := step before (JuliaExePathSettled 0 None b) in
  errorCount after = errorCount before
  /\ errorCount after = 0
  /\ g_languageClient after = None
  /\ launches after = []
  /\ count isGetPkgPath (log after) = 1
  /\ launches (startLanguageServer after) = [(nextTask after, AwaitPkgPath)].
Proof.
  destruct h as [ep p home hd pj [tel | ]]; vm_compute; repeat split.
Qed.

(** ** Restart: stopping the old client and constructing the next *)

Lemma log_configChanged_restart (s : State) (c : Client) (ns : ISettings) :
  g_languageClient s = Some c ->
  js_neq (juliaExePath (g_settings s)) (juliaExePath ns) = true ->
  log (configChanged ns s)
  = log s
    ++ (LoadSettings ns
        :: map (fun m => OnDidChangeConfiguration m ns) configListeners)
    ++ ClientStop c
    :: map (fun m => OnNewLanguageClient m None) featureModules
    ++ [GetPkgPath (nextTask s)].
Proof.
  intros Hcur Hneq. unfold configChanged.
  cbn [g_settings g_languageClient emit]. rewrite Hneq, Hcur.
  rewrite log_startLanguageServer, log_setLanguageClient, log_clientStop.
  rewrite log_emit. cbn [nextTask setLanguageClient emit set_languageClient].
  rewrite nextTask_clientStop. cbn [nextTask emit].
  rewrite <- !app_assoc. reflexivity.
Qed.

(** When a restart is asked for while a client is current, the handler
    calls [stop()] on that client and clears the current client before
    it begins the next launch; it constructs no client itself, and the
    promise returned by [stop()] is dropped. *)
Lemma restart_calls_stop_before_launch
      (s : State) (c : Client) (ns : ISettings) (evs : list Event) :
  g_languageClient s = Some c ->
  js_neq (juliaExePath (g_settings s)) (juliaExePath ns) = true ->
  g_languageClient (configChanged ns s) = None
  /\ exists later,
       log (runEvents (configChanged ns s) evs)
       = log s
         ++ (LoadSettings ns
             :: map (fun m => OnDidChangeConfiguration m ns) configListeners)
         ++ ClientStop c
         :: map (fun m => OnNewLanguageClient m None) featureModules
         ++ GetPkgPath (nextTask s) :: later.
Proof.
  intros Hcur Hneq. split.
  - unfold configChanged. cbn [g_settings g_languageClient emit].
    rewrite Hneq, Hcur. reflexivity.
  - destruct (runEvents_log_extends evs (configChanged ns s)) as [later H].
    exists later. rewrite H, (log_configChanged_restart s c ns Hcur Hneq).
    rewrite <- !app_assoc. cbn. reflexivity.
Qed.




(** ** Notifications of a superseded client *)

(** What a frame does in any state, reachable or not: it changes neither
    the current client nor anything a feature module sees, and the
    display follows the handler registered on the sending client. *)
Lemma notification_toggles_display_only
      (s : State) (c : Client) (m p : string) :
  let s' := step s (NotificationReceived c m p) in
  g_languageClient s' = g_languageClient s
  /\ count isModuleCall (log s') = count isModuleCall (log s)
  /\ display s' = match deliveredHandler s c m with
                  | Some h => handlerDisplay h
                  | None => display s
                  end.
Proof.
  cbv zeta. unfold deliveredHandler. cbn [step].
  destruct (clientState (clients s) c) as [[ | | ] | ];
    try (repeat split; reflexivity);
    (destruct (lookupHandler (handlers s) c m) as [[ | ] | ];
     [ | | repeat split; reflexivity ];
     cbn [runHandler]; unfold statusShow, statusHide;
     rewrite log_emit, count_app;
     (repeat split; [ unfold count; cbn; lia ])).
Qed.


(** ** The table of clients *)

Lemma clientState_setClientState (l : list (Client * ClientState))
      (c c' : Client) (st : ClientState) :
  clientState (setClientState l c st) c'
  = if Nat.eqb c c'
    then match clientState l c with Some _ => Some st | None => None end
    else clientState l c'.
Proof.
  induction l as [ | [c0 st0] l IH]; simpl.
  - destruct (Nat.eqb c c'); reflexivity.
  - destruct (Nat.eqb c0 c) eqn:E0; simpl.
    + apply Nat.eqb_eq in E0. subst c0.
      destruct (Nat.eqb c c'); reflexivity.
    + rewrite IH. destruct (Nat.eqb c c') eqn:E1; [ | reflexivity ].
      apply Nat.eqb_eq in E1. subst c'. rewrite E0. reflexivity.
Qed.

Lemma keys_setClientState (l : list (Client * ClientState)) (c : Client)
      (st : ClientState) :
  map fst (setClientState l c st) = map fst l.
Proof.
  induction l as [ | [c0 st0] l IH]; simpl; [ reflexivity | ].
  destruct (Nat.eqb c0 c); simpl; [ reflexivity | ].
  rewrite IH. reflexivity.
Qed.

Lemma clientState_app (l : list (Client * ClientState)) (c c' : Client)
      (st : ClientState) :
  clientState (l ++ [(c, st)]) c'
  = match clientState l c' with
    | Some x => Some x
    | None => if Nat.eqb c c' then Some st else None
    end.
Proof.
  induction l as [ | [c0 st0] l IH]; simpl; [ reflexivity | ].
  destruct (Nat.eqb c0 c'); [ reflexivity | exact IH ].
Qed.

Lemma clientState_In (l : list (Client * ClientState)) (c : Client)
      (st : ClientState) :
  NoDup (map fst l) -> In (c, st) l -> clientState l c = Some st.
Proof.
  induction l as [ | [c0 st0] l IH]; simpl; [ contradiction | ].
  intros Hnd [Heq | Hin].
  - inversion Heq; subst. rewrite Nat.eqb_refl. reflexivity.
  - inversion Hnd as [ | x xs Hnotin Hnd']; subst.
    destruct (Nat.eqb c0 c) eqn:E.
    + apply Nat.eqb_eq in E. subst c0. exfalso. apply Hnotin.
      apply (in_map fst) in Hin. exact Hin.
    + apply IH; assumption.
Qed.

Lemma filter_isRunning_nil (l : list (Client * ClientState)) :
  (forall p, In p l -> isRunning p = false) -> filter isRunning l = [].
Proof.
  induction l as [ | p l IH]; simpl; [ reflexivity | ].
  intros H. rewrite (H p (or_introl eq_refl)).
  apply IH. intros q Hq. apply H. right. exact Hq.
Qed.

(** With distinct identities, at most one client runs if every running
    client is the same one. *)
Lemma running_at_most_one (l : list (Client * ClientState)) (c0 : Client) :
  NoDup (map fst l) ->
  (forall c, clientState l c = Some Running -> c = c0) ->
  List.length (filter isRunning l) <= 1.
Proof.
  intros Hnd Hrun.
  assert (Hkey : forall p, In p l -> isRunning p = true -> fst p = c0).
  { intros [c st] Hin Hr. unfold isRunning in Hr. simpl in Hr |- *.
    destruct st; try discriminate.
    apply Hrun. apply clientState_In; assumption. }
  clear Hrun. induction l as [ | [c st] l IH]; simpl; [ lia | ].
  inversion Hnd as [ | x xs Hnotin Hnd']; subst.
  destruct (isRunning (c, st)) eqn:Er.
  - assert (c = c0) by (apply (Hkey (c, st)); [ left; reflexivity | exact Er ]).
    subst c. rewrite filter_isRunning_nil; [ simpl; lia | ].
    intros q Hq. destruct (isRunning q) eqn:Eq; [ | reflexivity ].
    exfalso. apply Hnotin.
    rewrite <- (Hkey q (or_intror Hq) Eq). apply in_map. exact Hq.
  - apply IH; [ exact Hnd' | ].
    intros q Hq. apply Hkey. right. exact Hq.
Qed.

(** ** One live client when restarts do not overlap launches *)


(** Updating only the log, the status item, the handlers or the pending
    callbacks keeps the state orderly. *)
Lemma Orderly_same_session (s s' : State) :
  launches s' = launches s ->
  g_languageClient s' = g_languageClient s ->
  clients s' = clients s ->
  nextClient s' = nextClient s ->
  Orderly s -> Orderly s'.
Proof.
  intros Hl Hg Hc Hn [H1 H2 H3 H4].
  constructor; rewrite ?Hl, ?Hg, ?Hc, ?Hn; assumption.
Qed.

Lemma Orderly_no_running (s : State) :
  Orderly s -> g_languageClient s = None ->
  forall c, clientState (clients s) c <> Some Running.
Proof.
  intros Ho Hg c Hc. apply (orderly_running s Ho) in Hc.
  rewrite Hg in Hc. discriminate Hc.
Qed.

Lemma Orderly_clientStop (s : State) (c : Client) :
  Orderly s -> g_languageClient s = Some c ->
  (forall c', clientState (clients (clientStop c s)) c' <> Some Running)
  /\ map fst (clients (clientStop c s)) = map fst (clients s)
  /\ nextClient (clientStop c s) = nextClient s
  /\ launches (clientStop c s) = launches s.
Proof.
  intros Ho Hg. unfold clientStop.
  destruct (clientState (clients s) c) as [[ | | ] | ] eqn:E; cbn;
    repeat split;
    try (rewrite keys_setClientState; reflexivity);
    try (intros c' Hc'; pose proof (orderly_running s Ho c' Hc') as Hcur;
         rewrite Hg in Hcur; inversion Hcur; subst c';
         rewrite E in Hc'; discriminate Hc').
  intros c' Hc'. rewrite clientState_setClientState in Hc'.
  destruct (Nat.eqb c c') eqn:Ec.
  - rewrite E in Hc'. discriminate Hc'.
  - pose proof (orderly_running s Ho c' Hc') as Hcur.
    rewrite Hg in Hcur. inversion Hcur; subst c'.
    rewrite Nat.eqb_refl in Ec. discriminate Ec.
Qed.

Lemma length_dropLaunch_le (l : list (Task * Stage)) (t : Task) :
  List.length (dropLaunch l t) <= List.length l.
Proof. apply filter_length_le. Qed.

Lemma Orderly_step (s : State) (e : Event) :
  Orderly s -> noReentrantStart s e = true -> Orderly (step s e).
Proof.
  intros Ho Hre.
  destruct e as [ns | t r | t r b | c ok | c m p | c]; cbn [step].
  - (* configuration change *)
    unfold configChanged. cbn [g_settings g_languageClient emit].
    simpl in Hre.
    destruct (js_neq (juliaExePath (g_settings s)) (juliaExePath ns));
      [ | apply (Orderly_same_session s); [ reflexivity .. | exact Ho ] ].
    destruct (launches s) as [ | x xs] eqn:El; [ | discriminate Hre ].
    destruct (g_languageClient s) as [c | ] eqn:Eg.
    + assert (Ho' : Orderly
                      (emit (LoadSettings ns
                             :: map (fun m => OnDidChangeConfiguration m ns)
                                    configListeners) s))
        by (apply (Orderly_same_session s); [ reflexivity .. | exact Ho ]).
      destruct (Orderly_clientStop _ c Ho' Eg) as (Hrun & Hkeys & Hnext & Hl).
      constructor;
        cbn [launches g_languageClient clients nextClient
             startLanguageServer setLanguageClient emit set_launches
             set_languageClient fresh_task].
      * rewrite Hl. cbn [launches emit]. rewrite El. simpl. lia.
      * intros c' Hc'. exfalso. exact (Hrun c' Hc').
      * intros c' Hc'. rewrite Hkeys in Hc'. rewrite Hnext.
        exact (orderly_fresh s Ho c' Hc').
      * rewrite Hkeys. exact (orderly_nodup s Ho).
    + constructor; cbn; rewrite ?El, ?Eg.
      * simpl. lia.
      * intros c' Hc'. exfalso.
        exact (Orderly_no_running s Ho Eg c' Hc').
      * exact (orderly_fresh s Ho).
      * exact (orderly_nodup s Ho).
  - (* the package path promise settles *)
    destruct (findLaunch (launches s) t) as [[ | a d o] | ] eqn:E;
      try exact Ho.
    pose proof (dropLaunch_shorter _ _ _ E) as Hlt.
    pose proof (orderly_single s Ho) as H1.
    destruct r as [dir | ]; constructor; cbn;
      try exact (orderly_running s Ho);
      try exact (orderly_fresh s Ho);
      try exact (orderly_nodup s Ho).
    + rewrite length_app. simpl. lia.
    + lia.
  - (* the executable path promise settles *)
    destruct (findLaunch (launches s) t) as [[ | a d o] | ] eqn:E;
      try exact Ho.
    pose proof (dropLaunch_shorter _ _ _ E) as Hlt.
    pose proof (orderly_single s Ho) as H1.
    assert (Eg : g_languageClient s = None).
    { destruct (g_languageClient s); [ exfalso; lia | reflexivity ]. }
    unfold startLanguageServer_afterJuliaExePath.
    rewrite isBound_RevealOutputChannelOn.
    destruct r as [exe | ]; constructor; cbn;
      try exact (orderly_running s Ho);
      try exact (orderly_fresh s Ho);
      try exact (orderly_nodup s Ho);
      rewrite Eg; lia.
  - (* a ready promise settles *)
    destruct (existsb (Nat.eqb c) (readyCallbacks s)); [ | exact Ho ].
    destruct ok.
    + unfold onReady_then. cbn [g_languageClient set_readyCallbacks].
      destruct (g_languageClient s);
        apply (Orderly_same_session s); try reflexivity; exact Ho.
    + apply (Orderly_same_session s); try reflexivity; exact Ho.
  - (* a notification frame *)
    destruct (clientState (clients s) c) as [[ | | ] | ]; try exact Ho;
      destruct (lookupHandler (handlers s) c m) as [[ | ] | ];
      try exact Ho;
      apply (Orderly_same_session s); try reflexivity; exact Ho.
  - (* a stop completes *)
    destruct (clientState (clients s) c) as [[ | | ] | ] eqn:E;
      try exact Ho.
    constructor; cbn.
    + exact (orderly_single s Ho).
    + intros c' Hc'. rewrite clientState_setClientState in Hc'.
      destruct (Nat.eqb c c').
      * rewrite E in Hc'. discriminate Hc'.
      * exact (orderly_running s Ho c' Hc').
    + intros c' Hc'. rewrite keys_setClientState in Hc'.
      exact (orderly_fresh s Ho c' Hc').
    + rewrite keys_setClientState. exact (orderly_nodup s Ho).
Qed.

Lemma Orderly_runEvents (evs : list Event) :
  forall s, Orderly s -> noRestartDuringLaunch s evs = true ->
            Orderly (runEvents s evs).
Proof.
  induction evs as [ | e evs IH]; intros s Ho Hre; simpl; [ exact Ho | ].
  simpl in Hre. apply andb_true_iff in Hre as [He Hre].
  apply IH; [ apply Orderly_step; assumption | exact Hre ].
Qed.

Lemma Orderly_liveCount (s : State) : Orderly s -> liveCount s <= 1.
Proof.
  intros Ho. unfold liveCount.
  destruct (g_languageClient s) as [c | ] eqn:Eg.
  - apply (running_at_most_one _ c); [ exact (orderly_nodup s Ho) | ].
    intros c' Hc'. pose proof (orderly_running s Ho c' Hc') as H.
    rewrite Eg in H. inversion H. reflexivity.
  - apply (running_at_most_one _ 0); [ exact (orderly_nodup s Ho) | ].
    intros c' Hc'. exfalso. exact (Orderly_no_running s Ho Eg c' Hc').
Qed.


(** ** Which handlers are ever registered *)

Lemma registerHandler_known (l : list (Client * string * Handler))
      (c : Client) (m : string) (h : Handler) :
  Forall knownHandler l -> knownHandler (c, m, h) ->
  Forall knownHandler (registerHandler l c m h).
Proof.
  intros Hl Hnew. induction Hl as [ | [[c' m'] h'] l Hx Hl IH]; simpl.
  - constructor; [ exact Hnew | constructor ].
  - destruct (Nat.eqb c' c && String.eqb m' m); constructor; assumption.
Qed.

Lemma lookupHandler_known (l : list (Client * string * Handler))
      (c : Client) (m : string) (h : Handler) :
  Forall knownHandler l -> lookupHandler l c m = Some h ->
  (m = g_serverBusyNotification /\ h = ShowStatus)
  \/ (m = g_serverReadyNotification /\ h = HideStatus).
Proof.
  intros Hl. induction Hl as [ | [[c' m'] h'] l Hx Hl IH]; simpl;
    [ discriminate | ].
  destruct (Nat.eqb c' c && String.eqb m' m) eqn:E; [ | exact IH ].
  intros Heq. inversion Heq; subst h'.
  apply andb_true_iff in E as [_ E]. apply String.eqb_eq in E. subst m'.
  exact Hx.
Qed.

Lemma step_handlers_known (s : State) (e : Event) :
  Forall knownHandler (handlers s) ->
  Forall knownHandler (handlers (step s e)).
Proof.
  intros Hk.
  destruct e as [ns | t r | t r b | c ok | c m p | c]; cbn [step].
  - unfold configChanged. cbn [g_settings g_languageClient emit].
    destruct (js_neq _ _); [ | exact Hk ].
    destruct (g_languageClient s) as [c | ]; [ | exact Hk ].
    unfold clientStop. cbn [clients emit].
    destruct (clientState (clients s) c) as [[ | | ] | ]; exact Hk.
  - destruct (findLaunch (launches s) t) as [[ | a d o] | ]; try exact Hk.
    destruct r; exact Hk.
  - destruct (findLaunch (launches s) t) as [[ | a d o] | ]; try exact Hk.
    destruct r as [exe | ]; [ | exact Hk ].
    destruct b; exact Hk.
  - destruct (existsb _ _); [ | exact Hk ].
    destruct ok; [ | exact Hk ].
    unfold onReady_then. cbn [g_languageClient set_readyCallbacks].
    destruct (g_languageClient s) as [cur | ]; [ | exact Hk ].
    cbn [handlers clientOnNotification emit set_handlers].
    apply registerHandler_known;
      [ apply registerHandler_known; [ exact Hk | ] | ].
    + left. split; reflexivity.
    + right. split; reflexivity.
  - destruct (clientState (clients s) c) as [[ | | ] | ]; try exact Hk;
      destruct (lookupHandler (handlers s) c m) as [[ | ] | ]; exact Hk.
  - destruct (clientState (clients s) c) as [[ | | ] | ]; exact Hk.
Qed.

(** In every state reached from [activate], a handler found for a
    method is the show handler on the busy method or the hide handler
    on the ready method. *)
Lemma registered_handlers (h : Host) (loaded : ISettings)
      (evs : list Event) (c : Client) (m : string) (hd : Handler) :
  lookupHandler (handlers (runEvents (activate h loaded) evs)) c m = Some hd ->
  (m = g_serverBusyNotification /\ hd = ShowStatus)
  \/ (m = g_serverReadyNotification /\ hd = HideStatus).
Proof.
  apply lookupHandler_known.
  assert (H0 : Forall knownHandler (handlers (activate h loaded)))
    by (unfold activate; destruct (enableTelemetry h); constructor).
  revert H0. generalize (activate h loaded).
  induction evs as [ | e evs IH]; intros s Hs; simpl; [ exact Hs | ].
  apply IH. apply step_handlers_known. exact Hs.
Qed.

(** ** How many launches a run begins *)

Ltac count_log :=
  unfold count in *; cbn; rewrite ?filter_app, ?length_app; simpl; lia.

(** A turn calls [getPkgPath] once when it is a configuration change
    whose executable path differs from [g_settings], and not at all
    otherwise. *)
Lemma step_getPkgPath (s : State) (e : Event) :
  count isGetPkgPath (log (step s e))
  = count isGetPkgPath (log s)
    + (if asksRestart (g_settings s) e then 1 else 0).
Proof.
  destruct e as [ns | t r | t r b | c ok | c m p | c]; cbn [step asksRestart].
  - unfold configChanged. cbn [g_settings g_languageClient emit].
    destruct (js_neq _ _); [ | count_log ].
    destruct (g_languageClient s) as [c | ].
    + rewrite log_startLanguageServer, log_setLanguageClient, log_clientStop.
      count_log.
    + count_log.
  - destruct (findLaunch (launches s) t) as [[ | a d o] | ]; try lia.
    destruct r; count_log.
  - destruct (findLaunch (launches s) t) as [[ | a d o] | ]; try lia.
    destruct r as [exe | ]; [ destruct b | ]; count_log.
  - destruct (existsb _ _); [ | lia ].
    destruct ok; [ | count_log ].
    unfold onReady_then; cbn.
    destruct (g_languageClient s); count_log.
  - destruct (clientState (clients s) c) as [[ | | ] | ]; try lia;
      (destruct (lookupHandler (handlers s) c m) as [[ | ] | ]; try lia;
       cbn; count_log).
  - destruct (clientState (clients s) c) as [[ | | ] | ]; try lia.
    cbn. count_log.
Qed.

Lemma g_settings_activate (h : Host) (loaded : ISettings) :
  g_settings (activate h loaded) = loaded.
Proof. unfold activate. destruct (enableTelemetry h); reflexivity. Qed.

(** X1: launches are begun by activation and by configuration changes
    whose executable path differs from the snapshot loaded at
    activation, one launch each, and by nothing else: no resolver
    result, handshake result, notification or completed stop ever
    begins one. *)
Theorem X1_launches_begun (h : Host) (loaded : ISettings)
        (evs : list Event) :
  count isGetPkgPath (log (runEvents (activate h loaded) evs))
  = 1 + List.length (filter (asksRestart loaded) evs).
Proof.
  assert (H0 : count isGetPkgPath (log (activate h loaded)) = 1).
  { rewrite log_activate. rewrite !count_app.
    destruct (enableTelemetry h); reflexivity. }
  rewrite <- H0. rewrite <- (g_settings_activate h loaded) at 3.
  generalize (activate h loaded). clear H0.
  induction evs as [ | e evs IH]; intros s; simpl; [ lia | ].
  rewrite IH, step_getPkgPath, step_g_settings.
  destruct (asksRestart (g_settings s) e); simpl; lia.
Qed.

(** ** Forwarding of configuration changes *)

Lemma step_forwards (m : Module) (s : State) (e : Event) :
  count (isForwardTo m) (log (step s e))
  = count (isForwardTo m) (log s)
    + (if isConfigurationChanged e then 1 else 0).
Proof.
  destruct e as [ns | t r | t r b | c ok | c' m' p | c];
    cbn [step isConfigurationChanged].
  - unfold configChanged. cbn [g_settings g_languageClient emit].
    destruct (js_neq _ _).
    + destruct (g_languageClient s) as [c | ].
      * rewrite log_startLanguageServer, log_setLanguageClient,
          log_clientStop.
        destruct m; count_log.
      * destruct m; count_log.
    + destruct m; count_log.
  - destruct (findLaunch (launches s) t) as [[ | a d o] | ]; try lia.
    destruct r; count_log.
  - destruct (findLaunch (launches s) t) as [[ | a d o] | ]; try lia.
    destruct r as [exe | ]; [ destruct b | ]; count_log.
  - destruct (existsb _ _); [ | lia ].
    destruct ok; [ | count_log ].
    unfold onReady_then; cbn.
    destruct (g_languageClient s); count_log.
  - destruct (clientState (clients s) c') as [[ | | ] | ]; try lia;
      (destruct (lookupHandler (handlers s) c' m') as [[ | ] | ]; try lia;
       count_log).
  - destruct (clientState (clients s) c) as [[ | | ] | ]; try lia.
    count_log.
Qed.

(** X2: every module of [configListeners], telemetry included, has
    received exactly one [onDidChangeConfiguration] call per
    configuration change of the run, whether or not the change led to
    a restart, and none from any other event. *)
Theorem X2_configuration_changes_forwarded
        (h : Host) (loaded : ISettings) (evs : list Event) (m : Module) :
  count (isForwardTo m) (log (runEvents (activate h loaded) evs))
  = List.length (filter isConfigurationChanged evs).
Proof.
  assert (H0 : count (isForwardTo m) (log (activate h loaded)) = 0).
  { rewrite log_activate. rewrite !count_app.
    destruct (enableTelemetry h); reflexivity. }
  replace (List.length (filter isConfigurationChanged evs))
    with (count (isForwardTo m) (log (activate h loaded))
          + List.length (filter isConfigurationChanged evs))
    by (rewrite H0; reflexivity).
  generalize (activate h loaded). clear H0.
  induction evs as [ | e evs IH]; intros s; simpl; [ lia | ].
  rewrite IH, step_forwards.
  destruct (isConfigurationChanged e); simpl; lia.
Qed.

(** ** What a launch may produce *)

Lemma step_launch_budget (s : State) (e : Event) :
  count isNewLanguageClient (log s) + List.length (launches s)
    <= count isGetPkgPath (log s)
  /\ errorCount s + List.length (launches s) <= count isGetPkgPath (log s) ->
  count isNewLanguageClient (log (step s e))
    + List.length (launches (step s e))
    <= count isGetPkgPath (log (step s e))
  /\ errorCount (step s e) + List.length (launches (step s e))
     <= count isGetPkgPath (log (step s e)).
Proof.
  unfold errorCount. intros [HA HB].
  destruct e as [ns | t r | t r b | c ok | c m p | c]; cbn [step].
  - unfold configChanged. cbn [g_settings g_languageClient emit].
    destruct (js_neq _ _); [ | split; count_log ].
    destruct (g_languageClient s) as [c | ].
    + unfold clientStop. cbn [clients emit].
      destruct (clientState (clients s) c) as [[ | | ] | ]; split; count_log.
    + split; count_log.
  - destruct (findLaunch (launches s) t) as [[ | a d o] | ] eqn:E;
      try (split; assumption).
    pose proof (dropLaunch_shorter _ _ _ E) as Hlt.
    destruct r; unfold count in *; cbn -[dropLaunch];
      rewrite ?filter_app, ?length_app; simpl; lia.
  - destruct (findLaunch (launches s) t) as [[ | a d o] | ] eqn:E;
      try (split; assumption).
    pose proof (dropLaunch_shorter _ _ _ E) as Hlt.
    destruct r as [exe | ]; [ destruct b | ]; unfold count in *;
      cbn -[dropLaunch]; rewrite ?filter_app, ?length_app; simpl; lia.
  - destruct (existsb _ _); [ | split; assumption ].
    destruct ok; [ | split; count_log ].
    unfold onReady_then; cbn.
    destruct (g_languageClient s); split; count_log.
  - destruct (clientState (clients s) c) as [[ | | ] | ];
      try (split; assumption);
      (destruct (lookupHandler (handlers s) c m) as [[ | ] | ];
       try (split; assumption); split; count_log).
  - destruct (clientState (clients s) c) as [[ | | ] | ];
      try (split; assumption).
    split; count_log.
Qed.

(** X3: a launch constructs at most one client and shows at most one
    error message: at any point of a run, the clients constructed so
    far and the launches still suspended together do not exceed the
    launches begun, and neither do the error messages shown together
    with the suspended launches. *)
Theorem X3_one_client_and_one_error_per_launch
        (h : Host) (loaded : ISettings) (evs : list Event) :
  let s := runEvents (activate h loaded) evs in
  count isNewLanguageClient (log s) + List.length (launches s)
    <= count isGetPkgPath (log s)
  /\ errorCount s + List.length (launches s) <= count isGetPkgPath (log s).
Proof.
  cbv zeta.
  assert (H0 : count isNewLanguageClient (log (activate h loaded))
               + List.length (launches (activate h loaded))
               <= count isGetPkgPath (log (activate h loaded))
               /\ errorCount (activate h loaded)
                  + List.length (launches (activate h loaded))
                  <= count isGetPkgPath (log (activate h loaded))).
  { unfold errorCount. rewrite log_activate, !count_app.
    unfold activate. destruct (enableTelemetry h); cbn; lia. }
  revert H0. generalize (activate h loaded).
  induction evs as [ | e evs IH]; intros s Hs; simpl; [ exact Hs | ].
  apply IH. apply step_launch_budget. exact Hs.
Qed.

(** ** The status item outside notifications *)

(** X4: only a notification frame touches the status item: a
    configuration change, restart included, a settled resolver or
    handshake promise and a completed stop leave its visibility and text
    as they were, so a restart does not put the display back to busy. *)
Theorem X4_status_item_changes_only_on_notification
        (s : State) (e : Event) :
  isNotificationReceived e = false ->
  g_serverstatus (step s e) = g_serverstatus s.
Proof.
  intros Hn.
  destruct e as [ns | t r | t r b | c ok | c m p | c]; cbn [step];
    try discriminate Hn.
  - unfold configChanged. cbn [g_settings g_languageClient emit].
    destruct (js_neq _ _); [ | reflexivity ].
    destruct (g_languageClient s) as [c | ]; [ | reflexivity ].
    unfold clientStop.
    destruct (clientState _ c) as [[ | | ] | ]; reflexivity.
  - destruct (findLaunch (launches s) t) as [[ | a d o] | ]; try reflexivity.
    destruct r; reflexivity.
  - destruct (findLaunch (launches s) t) as [[ | a d o] | ]; try reflexivity.
    destruct r as [exe | ]; [ destruct b | ]; reflexivity.
  - destruct (existsb _ _); [ | reflexivity ].
    destruct ok; [ | reflexivity ].
    unfold onReady_then; cbn.
    destruct (g_languageClient s); reflexivity.
  - destruct (clientState (clients s) c) as [[ | | ] | ]; reflexivity.
Qed.

Lemma X4_status_item_changes_only_on_notification_witness :
  g_serverstatus (step Scenario.secondSessionIdle
                       (ConfigurationChanged Scenario.settingsB'))
  = g_serverstatus Scenario.secondSessionIdle.
Proof.
  apply (X4_status_item_changes_only_on_notification
           Scenario.secondSessionIdle
           (ConfigurationChanged Scenario.settingsB')).
  reflexivity.
Defined.

Lemma step_status_text (s : State) (e : Event) :
  text (g_serverstatus (step s e)) = text (g_serverstatus s).
Proof.
  destruct e as [ns | t r | t r b | c ok | c m p | c]; cbn [step].
  - unfold configChanged. cbn [g_settings g_languageClient emit].
    destruct (js_neq _ _); [ | reflexivity ].
    destruct (g_languageClient s) as [c | ]; [ | reflexivity ].
    unfold clientStop.
    destruct (clientState _ c) as [[ | | ] | ]; reflexivity.
  - destruct (findLaunch (launches s) t) as [[ | a d o] | ]; try reflexivity.
    destruct r; reflexivity.
  - destruct (findLaunch (launches s) t) as [[ | a d o] | ]; try reflexivity.
    destruct r as [exe | ]; [ destruct b | ]; reflexivity.
  - destruct (existsb _ _); [ | reflexivity ].
    destruct ok; [ | reflexivity ].
    unfold onReady_then; cbn.
    destruct (g_languageClient s); reflexivity.
  - destruct (clientState (clients s) c) as [[ | | ] | ]; try reflexivity;
      destruct (lookupHandler (handlers s) c m) as [[ | ] | ]; reflexivity.
  - destruct (clientState (clients s) c) as [[ | | ] | ]; reflexivity.
Qed.

(** X5: the text of the status item is set once, by [activate], and
    stays the busy message through every run: the two handlers only
    show and hide the item, so a ready server is signalled by the item
    being hidden, never by another text. *)
Theorem X5_status_text_constant
        (h : Host) (loaded : ISettings) (evs : list Event) :
  text (g_serverstatus (runEvents (activate h loaded) evs))
  = "Julia Language Server is busy".
Proof.
  assert (H0 : text (g_serverstatus (activate h loaded))
               = "Julia Language Server is busy")
    by (unfold activate; destruct (enableTelemetry h); reflexivity).
  rewrite <- H0. generalize (activate h loaded). clear H0.
  induction evs as [ | e evs IH]; intros s; simpl; [ reflexivity | ].
  rewrite IH. apply step_status_text.
Qed.

(** ** Suspended launches *)

Lemma findLaunch_dropLaunch_other (l : list (Task * Stage)) (t t' : Task) :
  Nat.eqb t' t = false ->
  findLaunch (dropLaunch l t') t = findLaunch l t.
Proof.
  intros Hne. induction l as [ | [t0 st0] l IH]; simpl; [ reflexivity | ].
  destruct (Nat.eqb t0 t') eqn:E0; simpl.
  - apply Nat.eqb_eq in E0. subst t0. rewrite Hne. exact IH.
  - destruct (Nat.eqb t0 t); [ reflexivity | exact IH ].
Qed.

Lemma step_keeps_launch (s : State) (e : Event) (t : Task) (st : Stage) :
  findLaunch (launches s) t = Some st ->
  settles t e = false ->
  findLaunch (launches (step s e)) t = Some st.
Proof.
  intros Hf Hs.
  destruct e as [ns | t' r | t' r b | c ok | c m p | c];
    cbn [step]; simpl in Hs.
  - unfold configChanged. cbn [g_settings g_languageClient emit].
    destruct (js_neq _ _); [ | exact Hf ].
    destruct (g_languageClient s) as [c | ].
    + unfold clientStop. cbn [clients emit].
      destruct (clientState (clients s) c) as [[ | | ] | ]; cbn;
        rewrite findLaunch_app, Hf; reflexivity.
    + cbn. rewrite findLaunch_app, Hf. reflexivity.
  - destruct (findLaunch (launches s) t') as [[ | a d o] | ]; try exact Hf.
    destruct r; cbn -[dropLaunch];
      rewrite ?findLaunch_app, (findLaunch_dropLaunch_other _ _ _ Hs), Hf;
      reflexivity.
  - destruct (findLaunch (launches s) t') as [[ | a d o] | ]; try exact Hf.
    destruct r as [exe | ]; [ destruct b | ]; cbn -[dropLaunch];
      rewrite (findLaunch_dropLaunch_other _ _ _ Hs), Hf; reflexivity.
  - destruct (existsb _ _); [ | exact Hf ].
    destruct ok; [ | exact Hf ].
    unfold onReady_then; cbn.
    destruct (g_languageClient s); exact Hf.
  - destruct (clientState (clients s) c) as [[ | | ] | ]; try exact Hf;
      destruct (lookupHandler (handlers s) c m) as [[ | ] | ]; exact Hf.
  - destruct (clientState (clients s) c) as [[ | | ] | ]; exact Hf.
Qed.

(** X6: a suspended [startLanguageServer] invocation is never cancelled
    or altered by anything but the settling of its own promise:
    whatever else happens meanwhile, configuration changes and restarts
    included, it is still waiting at the same await, with the argument
    lists and spawn options it computed before suspending. *)
Theorem X6_suspended_launch_survives
        (s : State) (t : Task) (st : Stage) (evs : list Event) :
  findLaunch (launches s) t = Some st ->
  forallb (fun e => negb (settles t e)) evs = true ->
  findLaunch (launches (runEvents s evs)) t = Some st.
Proof.
  revert s. induction evs as [ | e evs IH]; intros s Hf Hall; simpl;
    [ exact Hf | ].
  simpl in Hall. apply andb_true_iff in Hall as [He Hall].
  apply IH; [ | exact Hall ].
  apply step_keeps_launch; [ exact Hf | ].
  destruct (settles t e); [ discriminate He | reflexivity ].
Qed.

Lemma X6_suspended_launch_survives_witness :
  findLaunch
    (launches (runEvents Scenario.activated
                 [ConfigurationChanged Scenario.settingsB;
                  PkgPathSettled 1 (Some "/pkg");
                  ConfigurationChanged Scenario.settingsB';
                  JuliaExePathSettled 1 (Some "/opt/julia/bin/julia") true;
                  ReadySettled 0 true]))
    0
  = Some AwaitPkgPath.
Proof.
  apply (X6_suspended_launch_survives Scenario.activated 0 AwaitPkgPath).
  - vm_compute. reflexivity.
  - vm_compute. reflexivity.
Defined.

(** ** Which clients are stopped, and which one is current *)

Lemma clientState_None (l : list (Client * ClientState)) (c : Client) :
  ~ In c (map fst l) -> clientState l c = None.
Proof.
  induction l as [ | [c0 st0] l IH]; simpl; [ reflexivity | ].
  intros Hn. destruct (Nat.eqb c0 c) eqn:E.
  - apply Nat.eqb_eq in E. exfalso. apply Hn. left. exact E.
  - apply IH. intros Hin. apply Hn. right. exact Hin.
Qed.








(** ** What the feature modules are told *)








